(** * flask_rest_jsonapi.decorators: header checks, method requirements and
      the exception formatter

    A shallow embedding of [src/flask_rest_jsonapi/decorators.py].

    Python strings that reach these decorators (header names and values,
    the request method) are WSGI native strings: sequences of code points
    below 256.  They are embedded as [string], one [ascii] per code point.

    The three decorators read the ambient [request] and [current_app] and
    call the function they wrap.  The embedding passes the request, the
    application and the handler instance explicitly, and runs everything in
    a small state-and-exception monad [M] over an abstract world, so that
    a wrapped function is an arbitrary computation that may change the
    world, return a response or raise. *)

From stdpp Require Import gmap strings list.
From Stdlib Require Import Ascii String ZArith.

Local Open Scope string_scope.

(** ** Python string operations used by the decorators *)

Module PyStr.

(** [str.isspace] on one code point below 256: TAB, LF, VT, FF, CR, the
    four separators FS, GS, RS, US, SPACE, NEL (0x85) and NBSP (0xA0). *)
Definition is_space (c : ascii) : bool :=
  let n := nat_of_ascii c in
  (((9 <=? n) && (n <=? 13)) || ((28 <=? n) && (n <=? 32))
   || (n =? 133) || (n =? 160))%nat.

Fixpoint lstrip (s : string) : string :=
  match s with
  | EmptyString => EmptyString
  | String c s' => if is_space c then lstrip s' else s
  end.

Fixpoint rstrip (s : string) : string :=
  match s with
  | EmptyString => EmptyString
  | String c s' =>
      match rstrip s' with
      | EmptyString => if is_space c then EmptyString else String c EmptyString
      | r => String c r
      end
  end.

(** [s.strip()] *)
Definition strip (s : string) : string := rstrip (lstrip s).

(** [s.split(sep)] for a one-character separator: never the empty list. *)
Fixpoint split (sep : ascii) (s : string) : list string :=
  match s with
  | EmptyString => [EmptyString]
  | String c s' =>
      if Ascii.eqb c sep then EmptyString :: split sep s'
      else match split sep s' with
           | [] => [String c EmptyString]
           | x :: xs => String c x :: xs
           end
  end.

(** [needle in s] *)
Fixpoint contains (needle s : string) : bool :=
  String.prefix needle s ||
  match s with
  | EmptyString => false
  | String _ s' => contains needle s'
  end.

(** [str.lower] on one code point below 256: A-Z, and the Latin-1 capitals
    0xC0-0xDE except the multiplication sign 0xD7. *)
Definition lower_char (c : ascii) : ascii :=
  let n := nat_of_ascii c in
  if (((65 <=? n) && (n <=? 90))
      || ((192 <=? n) && (n <=? 222) && negb (n =? 215)))%nat
  then ascii_of_nat (n + 32) else c.

Fixpoint lower (s : string) : string :=
  match s with
  | EmptyString => EmptyString
  | String c s' => String (lower_char c) (lower s')
  end.

End PyStr.

(** ** Data model *)

(** A header value: a string, or a list-like sequence of strings (the case
    [_is_list_like] tests for). *)
Inductive HeaderValue :=
| HStr (s : string)
| HList (l : list string).

(** [_is_list_like(iterable)] *)
Definition _is_list_like (v : HeaderValue) : bool :=
  match v with
  | HStr _ => false
  | HList _ => true
  end.

Record Request := {
  method : string;
  headers : gmap string HeaderValue
}.

(** Modelled from the spec: the error object of section 3 (the dictionaries
    built in this file and by [JsonApiException.to_dict], which is not in
    the sources at hand).  [source] and [detail] are strings, [status] is a
    string, the other fields are optional. *)
Record ErrorObject := {
  eo_source : string;
  eo_detail : string;
  eo_title : option string;
  eo_status : string;
  eo_code : option string;
  eo_id : option string;
  eo_links : option (list (string * string));
  eo_meta : option (list (string * string))
}.

(** Modelled from the spec: the error envelope of section 3, a body with an
    ordered sequence of error objects under [errors]. *)
Record Envelope := { errors : list ErrorObject }.

(** Modelled from the spec: [flask_rest_jsonapi.errors.jsonapi_errors] is
    not in the sources at hand; it puts the error objects it is given under
    [errors], in order. *)
Definition jsonapi_errors (l : list ErrorObject) : Envelope :=
  {| errors := l |}.

(** The status argument of [make_response]: an [int] in [check_headers],
    the exception's [status] string in the formatter. *)
Inductive Status :=
| StatusInt (n : Z)
| StatusStr (s : string).

(** A response body: a serialised JSON document ([json.dumps], [jsonify]),
    kept as the document it serialises, or any other payload of a handler. *)
Inductive Body :=
| JsonBody (doc : Envelope)
| RawBody (s : string).

Record Response := {
  resp_body : Body;
  resp_status : Status;
  resp_headers : gmap string string
}.

Definition json_dumps (doc : Envelope) : Body := JsonBody doc.
Definition jsonify (doc : Envelope) : Body := JsonBody doc.

Definition make_response (b : Body) (st : Status) (h : gmap string string)
  : Response :=
  {| resp_body := b; resp_status := st; resp_headers := h |}.

(** Modelled from the spec: [JsonApiException] (not in the sources at hand)
    carries the fields of an error object; its status is "400" when unset
    and links and meta are optional mappings. *)
Record JsonApiException := {
  je_detail : string;
  je_source : string;
  je_title : option string;
  je_status : string;
  je_code : option string;
  je_id : option string;
  je_links : option (list (string * string));
  je_meta : option (list (string * string))
}.

(** Modelled from the spec: the constructor
    [JsonApiException(detail, source=, title=, status=, code=, id_=, links=, meta=)];
    an unset status defaults to "400". *)
Definition JsonApiException_init (detail source : string)
    (title status code id_ : option string)
    (links meta : option (list (string * string))) : JsonApiException :=
  {| je_detail := detail;
     je_source := source;
     je_title := title;
     je_status := default "400" status;
     je_code := code;
     je_id := id_;
     je_links := links;
     je_meta := meta |}.

(** Modelled from the spec: [JsonApiException.to_dict], the conversion of the
    exception to one error object with the same fields. *)
Definition to_dict (e : JsonApiException) : ErrorObject :=
  {| eo_source := je_source e;
     eo_detail := je_detail e;
     eo_title := je_title e;
     eo_status := je_status e;
     eo_code := je_code e;
     eo_id := je_id e;
     eo_links := je_links e;
     eo_meta := je_meta e |}.

(** Any other [Exception] instance, as the formatter sees it: [str(e)] and
    the attributes it probes with [getattr]. *)
Record Failure := {
  f_str : string;
  f_detail : option string;
  f_source : option string;
  f_title : option string;
  f_status : option string;
  f_code : option string;
  f_id : option string;
  f_links : option (list (string * string));
  f_meta : option (list (string * string))
}.

(** [Exception(msg)]: no attribute of its own, [str] gives the message. *)
Definition Exception (msg : string) : Failure :=
  {| f_str := msg; f_detail := None; f_source := None; f_title := None;
     f_status := None; f_code := None; f_id := None; f_links := None;
     f_meta := None |}.

(** What [request.headers[key]] raises on an absent key; [str] of a
    [KeyError] is the [repr] of the key. *)
Definition KeyError (key : string) : Failure := Exception ("'" ++ key ++ "'").

(** What [v.split] raises when [v] is not a string. *)
Definition AttributeError (msg : string) : Failure := Exception msg.

(** What a call can raise: a [JsonApiException], another [Exception], or a
    [BaseException] outside [Exception] (which no [except] clause of this
    file catches). *)
Inductive Raised :=
| RaisedJsonApi (e : JsonApiException)
| RaisedOther (e : Failure)
| RaisedBase (name : string).

Inductive Outcome (A : Type) :=
| Returned (a : A)
| Raises (e : Raised).
Arguments Returned {A} a.
Arguments Raises {A} e.

(** [ALLOWED_HEADERS] *)
Definition ALLOWED_HEADERS : gset string :=
  {[ "application/vnd.api+json"; "application/json" ]}.

(** The handler instance [args[0]]: its class name and whether
    [hasattr(args[0], 'schema')] holds. *)
Record Handler := {
  class_name : string;
  has_schema : bool
}.

(** [current_app.config]: [DEBUG] is always set, the two other keys are read
    with [config.get] and may be absent. *)
Record Config := {
  DEBUG : bool;
  PROPAGATE_EXCEPTIONS : option bool;
  GLOBAL_ERROR_MESSAGE : option string
}.

(** [a or b] on an optional string: [None] and the empty string are falsy. *)
Definition py_or (a : option string) (b : string) : string :=
  match a with
  | None => b
  | Some EmptyString => b
  | Some m => m
  end.

(** The body of the [for] loop over the candidates of the Accept header,
    with [flag] threaded through; [break] ends the scan with [flag = False]. *)
Fixpoint accept_loop (flag : bool) (candidates : list string) : bool :=
  match candidates with
  | [] => flag
  | accept :: rest =>
      if bool_decide (PyStr.strip accept ∈ ALLOWED_HEADERS) then false
      else if PyStr.contains "application/vnd.api+json" accept
              && negb (String.eqb (PyStr.strip accept) "application/vnd.api+json")
           then accept_loop true rest
           else accept_loop flag rest
  end.

(** The two branches on [_is_list_like]: [set(value)] for a list-like
    value, [set([value])] for a string. *)
Definition header_set (v : HeaderValue) : gset string :=
  match v with
  | HList l => list_to_set l
  | HStr s => {[ s ]}
  end.

(** ** The monad of calls *)

Section Decorators.

Context {World : Type}.

(** A call runs in a world, changes it, and returns or raises. *)
Definition M (A : Type) : Type := World -> Outcome A * World.

Definition ret {A} (a : A) : M A := fun w => (Returned a, w).

Definition raise {A} (e : Raised) : M A := fun w => (Raises e, w).

Definition bind {A B} (m : M A) (k : A -> M B) : M B :=
  fun w =>
    match m w with
    | (Returned a, w') => k a w'
    | (Raises e, w') => (Raises e, w')
    end.

(** [try: body / except ...: handler]; the handler sees what was raised and
    the world the body left. *)
Definition try_except {A} (body : M A) (handler : Raised -> M A) : M A :=
  fun w =>
    match body w with
    | (Returned a, w') => (Returned a, w')
    | (Raises e, w') => handler e w'
    end.

Notation "'let*' x ':=' m 'in' k" := (bind m (fun x => k))
  (at level 10, x name, m at level 100, k at level 200).

(** [request.headers[key]] *)
Definition getitem (h : gmap string HeaderValue) (key : string)
  : M HeaderValue :=
  match h !! key with
  | Some v => ret v
  | None => raise (RaisedOther (KeyError key))
  end.

(** [value.split(',')] *)
Definition split_commas (v : HeaderValue) : M (list string) :=
  match v with
  | HStr s => ret (PyStr.split "," s)
  | HList _ =>
      raise (RaisedOther
               (AttributeError "'list' object has no attribute 'split'"))
  end.

(** [current_app]: its configuration and, when the extension is
    registered, what [extensions['sentry'].captureException()] does. *)
Record App := {
  config : Config;
  sentry : option (M unit)
}.

(** ** [check_headers] *)

Definition check_headers (func : M Response) (request : Request)
  : M Response :=
  let accept_check : M Response :=
    if bool_decide (is_Some (headers request !! "Accept")) then
      let* v := getitem (headers request) "Accept" in
      let* candidates := split_commas v in
      let flag := accept_loop false candidates in
      if flag then
        let error :=
          json_dumps (jsonapi_errors
            [ {| eo_source := "";
                 eo_detail := "Accept header must be application/vnd.api+json without"
                              ++ "media type parameters";
                 eo_title := Some "Invalid request header";
                 eo_status := "406";
                 eo_code := None; eo_id := None;
                 eo_links := None; eo_meta := None |} ]) in
        ret (make_response error (StatusInt 406)
               {[ "Content-Type" := "application/vnd.api+json" ]})
      else func
    else func in
  if bool_decide (method request ∈ ["POST"; "PATCH"]) then
    let has_content_type_header :=
      negb (bool_decide (is_Some (headers request !! "Content-Type"))) in
    let* v := getitem (headers request) "Content-Type" in
    let header_is_allowed := ALLOWED_HEADERS ∩ header_set v in
    if negb (has_content_type_header
             && bool_decide (header_is_allowed ≠ ∅)) then
      let error :=
        json_dumps (jsonapi_errors
          [ {| eo_source := "";
               eo_detail := "Content-Type header must be application/vnd.api+json";
               eo_title := Some "Invalid request header";
               eo_status := "415";
               eo_code := None; eo_id := None;
               eo_links := None; eo_meta := None |} ]) in
      ret (make_response error (StatusInt 415)
             {[ "Content-Type" := "application/vnd.api+json" ]})
    else accept_check
  else accept_check.

(** ** [check_method_requirements] *)

Definition check_method_requirements (func : M Response) (self : Handler)
    (request : Request) : M Response :=
  let error_message (error_field cls meth : string) :=
    "You must provide " ++ error_field ++ " in " ++ cls
    ++ " to get access to the default " ++ meth ++ " method" in
  let cls := class_name self in
  let meth := PyStr.lower (method request) in
  if negb (String.eqb (method request) "DELETE") then
    if negb (has_schema self) then
      raise (RaisedOther (Exception (error_message "a schema class" cls meth)))
    else func
  else func.

(** ** [jsonapi_exception_formatter] *)

Definition jsonapi_exception_formatter (func : M Response)
    (current_app : App) : M Response :=
  let headers : gmap string string :=
    {[ "Content-Type" := "application/vnd.api+json" ]} in
  try_except func (fun raised =>
    match raised with
    | RaisedJsonApi e =>
        ret (make_response (jsonify (jsonapi_errors [to_dict e]))
               (StatusStr (je_status e)) headers)
    | RaisedOther e =>
        if DEBUG (config current_app)
           || bool_decide (PROPAGATE_EXCEPTIONS (config current_app) = Some true)
        then raise (RaisedOther e)
        else
          let* _ := match sentry current_app with
                    | Some captureException => captureException
                    | None => ret tt
                    end in
          let exc :=
            JsonApiException_init
              (default (py_or (GLOBAL_ERROR_MESSAGE (config current_app))
                              (f_str e))
                       (f_detail e))
              (default "" (f_source e))
              (f_title e) (f_status e) (f_code e) (f_id e)
              (f_links e) (f_meta e) in
          ret (make_response (jsonify (jsonapi_errors [to_dict exc]))
                 (StatusStr (je_status exc)) headers)
    | RaisedBase name => raise (RaisedBase name)
    end).

End Decorators.

Arguments M : clear implicits.
Arguments App : clear implicits.

(** ** Statements: the responses and messages the claims name *)

(** The error object of a header rejection. *)
Definition header_error (status detail : string) : ErrorObject :=
  {| eo_source := ""; eo_detail := detail;
     eo_title := Some "Invalid request header"; eo_status := status;
     eo_code := None; eo_id := None; eo_links := None; eo_meta := None |}.

(** The response of a header rejection with the given status and detail. *)
Definition header_rejection (code : Z) (status detail : string) : Response :=
  {| resp_body := JsonBody {| errors := [header_error status detail] |};
     resp_status := StatusInt code;
     resp_headers := {[ "Content-Type" := "application/vnd.api+json" ]} |}.

Definition content_type_detail : string :=
  "Content-Type header must be application/vnd.api+json".

(** The detail the specification gives for the 406 rejection. *)
Definition accept_detail_spec : string :=
  "Accept header must be application/vnd.api+json without media type parameters".

(** The detail the code builds for the 406 rejection. *)
Definition accept_detail_code : string :=
  "Accept header must be application/vnd.api+json withoutmedia type parameters".

(** The message of the configuration error. *)
Definition schema_message (cls meth : string) : string :=
  "You must provide a schema class in " ++ cls
  ++ " to get access to the default " ++ meth ++ " method".

(** The body of a response carries exactly one error object. *)
Definition exactly_one_error (r : Response) : Prop :=
  exists doc, resp_body r = JsonBody doc /\ List.length (errors doc) = 1.

(** An Accept value has a candidate that, stripped, is an accepted type. *)
Definition has_exact_match (s : string) : Prop :=
  exists c, c ∈ PyStr.split "," s /\ PyStr.strip c ∈ ALLOWED_HEADERS.

(** An Accept value has a candidate that contains the JSON:API media type
    without being equal to it once stripped. *)
Definition has_parameterized (s : string) : Prop :=
  exists c, c ∈ PyStr.split "," s
    /\ PyStr.contains "application/vnd.api+json" c = true
    /\ PyStr.strip c ≠ "application/vnd.api+json".

(** The request without its Accept header. *)
Definition without_accept (request : Request) : Request :=
  {| method := method request;
     headers := delete "Accept" (headers request) |}.

Section Reporting.
Context {World : Type}.

(** The reporting step of the formatter: the capture call when the
    extension is registered, nothing otherwise. *)
Definition sentry_report (app : App World) : M World unit :=
  match sentry app with
  | Some captureException => captureException
  | None => ret tt
  end.

(** The exception the formatter builds from another failure. *)
Definition translated (app : App World) (e : Failure) : JsonApiException :=
  JsonApiException_init
    (default (py_or (GLOBAL_ERROR_MESSAGE (config app)) (f_str e)) (f_detail e))
    (default "" (f_source e))
    (f_title e) (f_status e) (f_code e) (f_id e) (f_links e) (f_meta e).

(** The response the formatter builds from a [JsonApiException]. *)
Definition error_response (e : JsonApiException) : Response :=
  {| resp_body := JsonBody {| errors := [to_dict e] |};
     resp_status := StatusStr (je_status e);
     resp_headers := {[ "Content-Type" := "application/vnd.api+json" ]} |}.

(** Debug or propagate mode. *)
Definition reraises (app : App World) : bool :=
  DEBUG (config app)
  || bool_decide (PROPAGATE_EXCEPTIONS (config app) = Some true).

End Reporting.

(** ** Concrete inputs *)

Module Sample.

(** The world of the samples: a log of what ran. *)
Definition World : Type := list string.

Definition log (event : string) : M World unit :=
  fun w => (Returned tt, (w ++ [event])%list).

Definition ok_response : Response :=
  {| resp_body := RawBody "ok"; resp_status := StatusInt 200;
     resp_headers := ∅ |}.

(** A handler that logs its call and answers 200. *)
Definition handler : M World Response :=
  fun w => (Returned ok_response, (w ++ ["handler"])%list).

Definition request_of (m : string) (h : list (string * HeaderValue))
  : Request :=
  {| method := m; headers := list_to_map h |}.

Definition production : Config :=
  {| DEBUG := false; PROPAGATE_EXCEPTIONS := None;
     GLOBAL_ERROR_MESSAGE := None |}.

Definition debug : Config :=
  {| DEBUG := true; PROPAGATE_EXCEPTIONS := None;
     GLOBAL_ERROR_MESSAGE := None |}.

Definition app_plain (c : Config) : App World :=
  {| config := c; sentry := None |}.

(** An application whose capture operation records the report. *)
Definition app_sentry (c : Config) : App World :=
  {| config := c; sentry := Some (log "captured") |}.

(** An application whose capture operation raises. *)
Definition app_broken_sentry (c : Config) : App World :=
  {| config := c;
     sentry := Some (raise (RaisedOther (Exception "sentry unreachable"))) |}.

Definition schemaless : Handler :=
  {| class_name := "PersonList"; has_schema := false |}.

Definition not_found : JsonApiException :=
  JsonApiException_init "Not found" "" None (Some "404") None None None None.

(** A wrapped function that raises a [JsonApiException]. *)
Definition raises_not_found : M World Response :=
  raise (RaisedJsonApi not_found).

(** A wrapped function that raises another exception. *)
Definition raises_boom : M World Response :=
  raise (RaisedOther (Exception "boom")).

(** GET on the schema-less handler, under the method requirements. *)
Definition misconfigured_get : M World Response :=
  check_method_requirements handler schemaless (request_of "GET" []).

(** The response the formatter builds from the configuration error. *)
Definition misconfigured_response : Response :=
  {| resp_body :=
       JsonBody {| errors :=
         [ {| eo_source := "";
              eo_detail := "You must provide a schema class in PersonList to get access to the default get method";
              eo_title := None; eo_status := "400";
              eo_code := None; eo_id := None;
              eo_links := None; eo_meta := None |} ] |};
     resp_status := StatusStr "400";
     resp_headers := {[ "Content-Type" := "application/vnd.api+json" ]} |}.

(** The response the formatter builds from [raises_boom]. *)
Definition boom_response : Response :=
  {| resp_body :=
       JsonBody {| errors :=
         [ {| eo_source := ""; eo_detail := "boom";
              eo_title := None; eo_status := "400";
              eo_code := None; eo_id := None;
              eo_links := None; eo_meta := None |} ] |};
     resp_status := StatusStr "400";
     resp_headers := {[ "Content-Type" := "application/vnd.api+json" ]} |}.

End Sample.

(** ** Statements about the candidates of the Accept header *)

(** [sep.join(l)] *)
Fixpoint join (sep : string) (l : list string) : string :=
  match l with
  | [] => EmptyString
  | x :: rest =>
      match rest with
      | [] => x
      | _ :: _ => x ++ sep ++ join sep rest
      end
  end.

(** The string is empty or its last character is not white space. *)
Fixpoint ends_tight (n : string) : bool :=
  match n with
  | EmptyString => true
  | String a n' =>
      match n' with
      | EmptyString => negb (PyStr.is_space a)
      | String _ _ => ends_tight n'
      end
  end.

(** The string starts with a character that is not white space. *)
Definition starts_tight (n : string) : bool :=
  match n with
  | EmptyString => false
  | String a _ => negb (PyStr.is_space a)
  end.

(** The JSON:API media type, the needle of the substring test. *)
Definition vnd_api_json : string := "application/vnd.api+json".

(** The verdict of the Accept check in the words of the specification, on
    the trimmed candidates: no violation when a candidate equals an accepted
    media type; otherwise a violation when a candidate contains the JSON:API
    media type without being equal to it. *)
Definition accept_violation_spec (candidates : list string) : bool :=
  let trimmed := map PyStr.strip candidates in
  if existsb (λ c, bool_decide (c ∈ ALLOWED_HEADERS)) trimmed then false
  else existsb (λ c, PyStr.contains vnd_api_json c
                     && negb (String.eqb c vnd_api_json)) trimmed.

(** The request with its Content-Type header set to a value, or removed. *)
Definition with_content_type (v : option HeaderValue) (request : Request)
  : Request :=
  {| method := method request;
     headers := match v with
                | Some x => <[ "Content-Type" := x ]> (headers request)
                | None => delete "Content-Type" (headers request)
                end |}.

(** Goals about concrete inputs: a decidable proposition is computed. *)
Ltac by_compute :=
  lazymatch goal with
  | |- ?P => refine (@bool_decide_unpack P _ _); vm_compute; exact I
  end.

(** ** The header set *)

(** [header_set] follows [_is_list_like]: the elements of a list-like value,
    the value itself otherwise. *)
Lemma header_set_branches (v : HeaderValue) (x : string) :
  x ∈ header_set v ↔
  if _is_list_like v then ∃ l, v = HList l ∧ x ∈ l else v = HStr x.
Proof.
  destruct v as [s|l]; cbn.
  - rewrite elem_of_singleton. split; [by intros ->|by intros [= ->]].
  - rewrite elem_of_list_to_set. split; [by exists l|by intros (? & [= <-] & ?)].
Qed.

(** ** The Accept scan *)

(** The loop answers [false] as soon as one candidate is an exact match,
    whatever the flag was and whatever stands before or after it. *)
Lemma accept_loop_exact (l : list string) :
  ∀ flag c, c ∈ l → PyStr.strip c ∈ ALLOWED_HEADERS →
            accept_loop flag l = false.
Proof.
  induction l as [|a l IH]; intros flag c Hin Hok.
  - by apply elem_of_nil in Hin.
  - cbn [accept_loop]. case_bool_decide as Ha; [done|].
    apply elem_of_cons in Hin as [->|Hin]; [done|].
    destruct (_ && _); eapply IH; eauto.
Qed.

(** Without an exact match a raised flag stays raised. *)
Lemma accept_loop_true (l : list string) :
  (∀ c, c ∈ l → PyStr.strip c ∉ ALLOWED_HEADERS) →
  accept_loop true l = true.
Proof.
  induction l as [|a l IH]; intros Hno; [done|].
  cbn [accept_loop]. rewrite bool_decide_eq_false_2.
  - destruct (_ && _); apply IH; intros c Hc; apply Hno; by right.
  - apply Hno. by left.
Qed.

(** Without an exact match one parameterized candidate raises the flag. *)
Lemma accept_loop_parameterized (l : list string) :
  ∀ flag c,
    (∀ c, c ∈ l → PyStr.strip c ∉ ALLOWED_HEADERS) →
    c ∈ l →
    PyStr.contains "application/vnd.api+json" c = true →
    PyStr.strip c ≠ "application/vnd.api+json" →
    accept_loop flag l = true.
Proof.
  induction l as [|a l IH]; intros flag c Hno Hin Hsub Hne.
  - by apply elem_of_nil in Hin.
  - cbn [accept_loop]. rewrite bool_decide_eq_false_2 by (apply Hno; by left).
    assert (Hrest : ∀ c, c ∈ l → PyStr.strip c ∉ ALLOWED_HEADERS)
      by (intros c' Hc'; apply Hno; by right).
    apply elem_of_cons in Hin as [->|Hin].
    + rewrite Hsub. cbn [andb].
      destruct (String.eqb_spec (PyStr.strip a) "application/vnd.api+json")
        as [Heq|_]; [done|].
      cbn [negb]. by apply accept_loop_true.
    + destruct (_ && _); eapply IH; eauto.
Qed.

Section HeaderChecks.
Context {World : Type}.
Implicit Types (func : M World Response) (request : Request) (w : World).

(** A request that is neither POST nor PATCH skips the Content-Type
    check; without an Accept header it goes to the wrapped function. *)
Lemma check_headers_no_body_no_accept func request w :
  method request ∉ ["POST"; "PATCH"] →
  headers request !! "Accept" = None →
  check_headers func request w = func w.
Proof.
  intros Hm Ha. unfold check_headers.
  rewrite (bool_decide_eq_false_2 _ Hm), Ha.
  rewrite bool_decide_eq_false_2; [done|]. by intros [? ?].
Qed.

(** The Accept check on a string value, for a request that skips the
    Content-Type check. *)
Lemma check_headers_no_body_accept func request w s :
  method request ∉ ["POST"; "PATCH"] →
  headers request !! "Accept" = Some (HStr s) →
  check_headers func request w =
    if accept_loop false (PyStr.split "," s)
    then (Returned (header_rejection 406 "406" accept_detail_code), w)
    else func w.
Proof.
  intros Hm Ha. unfold check_headers.
  rewrite (bool_decide_eq_false_2 _ Hm), Ha.
  rewrite bool_decide_eq_true_2 by eauto.
  unfold bind, getitem. rewrite Ha. cbn.
  by destruct (accept_loop false (PyStr.split "," s)).
Qed.

(** POST and PATCH with a Content-Type header, whatever its value: the
    presence test is negated, so the rejection is always taken. *)
Lemma check_headers_body_present func request w v :
  method request ∈ ["POST"; "PATCH"] →
  headers request !! "Content-Type" = Some v →
  check_headers func request w =
    (Returned (header_rejection 415 "415" content_type_detail), w).
Proof.
  intros Hm Hc. unfold check_headers.
  rewrite (bool_decide_eq_true_2 _ Hm).
  unfold bind, getitem. rewrite Hc. reflexivity.
Qed.

(** POST and PATCH without a Content-Type header: the header is indexed
    before the presence flag is used, and the lookup raises. *)
Lemma check_headers_body_absent func request w :
  method request ∈ ["POST"; "PATCH"] →
  headers request !! "Content-Type" = None →
  check_headers func request w =
    (Raises (RaisedOther (KeyError "Content-Type")), w).
Proof.
  intros Hm Hc. unfold check_headers.
  rewrite (bool_decide_eq_true_2 _ Hm).
  unfold bind, getitem. by rewrite Hc.
Qed.

End HeaderChecks.

Section HeaderClaims.
Context {World : Type}.
Implicit Types (func : M World Response) (request : Request) (w : World).

(** Without an exact match, a parameterized candidate makes a request that
    skips the Content-Type check end in the 406 rejection, with the detail
    as the code spells it. *)
Lemma check_headers_parameterized_accept func request w s :
  method request ∉ ["POST"; "PATCH"] →
  headers request !! "Accept" = Some (HStr s) →
  has_parameterized s →
  ¬ has_exact_match s →
  check_headers func request w =
    (Returned (header_rejection 406 "406" accept_detail_code), w).
Proof.
  intros Hm Ha (c & Hin & Hsub & Hne) Hno.
  rewrite (check_headers_no_body_accept _ _ _ s Hm Ha).
  rewrite (accept_loop_parameterized _ false c); try done.
  intros c' Hc' Hok. apply Hno. by exists c'.
Qed.

(** C1, evaluated on the code: a POST request whose Content-Type is
    application/vnd.api+json, and a PATCH request whose Content-Type is
    application/json, both get the 415 rejection; the wrapped function is
    not called. *)
Theorem allowed_content_type_is_rejected func w :
  check_headers func
    (Sample.request_of "POST"
       [("Content-Type", HStr "application/vnd.api+json")]) w
  = (Returned (header_rejection 415 "415" content_type_detail), w)
  ∧ check_headers func
      (Sample.request_of "PATCH"
         [("Content-Type", HStr "application/json")]) w
    = (Returned (header_rejection 415 "415" content_type_detail), w).
Proof.
  split.
  - apply (check_headers_body_present _ _ _ (HStr "application/vnd.api+json"));
      [by_compute | reflexivity].
  - apply (check_headers_body_present _ _ _ (HStr "application/json"));
      [by_compute | reflexivity].
Qed.

(** C2, evaluated on the code: a POST request and a PATCH request without
    any header do not get a 415 response; the lookup of the absent
    Content-Type header raises a KeyError. *)
Theorem missing_content_type_raises func w :
  check_headers func (Sample.request_of "POST" []) w
  = (Raises (RaisedOther (KeyError "Content-Type")), w)
  ∧ check_headers func (Sample.request_of "PATCH" []) w
    = (Raises (RaisedOther (KeyError "Content-Type")), w).
Proof.
  split; apply check_headers_body_absent; solve [by_compute | reflexivity].
Qed.

(** C4, evaluated on the code: a GET request with
    Accept: application/vnd.api+json; charset=utf-8 gets a 406 response
    with one error object whose title is "Invalid request header", but
    whose detail reads "withoutmedia type parameters": the two string
    literals are joined without a space, so the detail is not the one the
    claim gives. *)
Theorem parameterized_accept_detail_lacks_space func w :
  check_headers func
    (Sample.request_of "GET"
       [("Accept", HStr "application/vnd.api+json; charset=utf-8")]) w
  = (Returned (header_rejection 406 "406" accept_detail_code), w)
  ∧ accept_detail_code ≠ accept_detail_spec.
Proof.
  split; [|discriminate].
  rewrite (check_headers_no_body_accept _ _ _
             "application/vnd.api+json; charset=utf-8");
    [reflexivity | by_compute | reflexivity].
Qed.

(** C7: when the Accept header is a string with a candidate that, once
    stripped, is an accepted media type, the Accept check lets the request
    through whatever the other candidates are and wherever they stand: the
    result is the one for the same request without its Accept header, a
    request that is neither POST nor PATCH reaches the wrapped function,
    and any 406 response that comes back is the wrapped function's own. *)
Theorem accept_exact_match_passes func request w s :
  headers request !! "Accept" = Some (HStr s) →
  has_exact_match s →
  check_headers func request w
    = check_headers func (without_accept request) w
  ∧ (method request ∉ ["POST"; "PATCH"] →
     check_headers func request w = func w)
  ∧ (∀ r w', check_headers func request w = (Returned r, w') →
             resp_status r = StatusInt 406 →
             func w = (Returned r, w')).
Proof.
  intros Ha (c & Hin & Hok).
  assert (Hloop : accept_loop false (PyStr.split "," s) = false)
    by (by eapply accept_loop_exact).
  destruct (decide (method request ∈ ["POST"; "PATCH"])) as [Hm|Hm].
  - destruct (headers request !! "Content-Type") as [v|] eqn:Hc.
    + rewrite (check_headers_body_present _ _ _ v Hm Hc).
      rewrite (check_headers_body_present _ (without_accept request) _ v);
        [|done|by cbn; rewrite lookup_delete_ne].
      repeat split; [done|]. intros r w' [= <- <-]. discriminate.
    + rewrite (check_headers_body_absent _ _ _ Hm Hc).
      rewrite (check_headers_body_absent _ (without_accept request));
        [|done|by cbn; rewrite lookup_delete_ne].
      repeat split; [done|]. intros r w' [=].
  - rewrite (check_headers_no_body_accept _ _ _ s Hm Ha), Hloop.
    rewrite (check_headers_no_body_no_accept _ (without_accept request));
      [|done|by cbn; rewrite lookup_delete_eq].
    repeat split. by intros r w' ->.
Qed.

End HeaderClaims.

(** C7 at a concrete input: a parameterized candidate before the exact
    match, another one after it. *)
Lemma accept_exact_match_passes_witness :
  let request :=
    Sample.request_of "GET"
      [("Accept",
        HStr "application/vnd.api+json; q=1, application/json ,application/vnd.api+json;v=2")] in
  check_headers Sample.handler request [] = (Returned Sample.ok_response, ["handler"]).
Proof.
  intros request.
  refine (proj1 (proj2 (accept_exact_match_passes Sample.handler request []
            "application/vnd.api+json; q=1, application/json ,application/vnd.api+json;v=2"
            _ _)) _).
  - reflexivity.
  - exists " application/json ". split; by_compute.
  - by_compute.
Defined.

(** ** The method requirements and the formatter *)

Section FormatterLemmas.
Context {World : Type}.
Implicit Types (func : M World Response) (request : Request) (w : World)
  (app : App World) (self : Handler).

Lemma reraises_true app :
  reraises app = true ↔
  DEBUG (config app) = true ∨ PROPAGATE_EXCEPTIONS (config app) = Some true.
Proof.
  unfold reraises. rewrite orb_true_iff, bool_decide_eq_true. tauto.
Qed.

Lemma reraises_false app :
  reraises app = false ↔
  DEBUG (config app) = false ∧ PROPAGATE_EXCEPTIONS (config app) ≠ Some true.
Proof.
  unfold reraises. rewrite orb_false_iff, bool_decide_eq_false. tauto.
Qed.

(** A schema-less handler and a method other than DELETE: the guard
    raises before the wrapped function is called. *)
Lemma check_method_requirements_raises func self request w :
  method request ≠ "DELETE" →
  has_schema self = false →
  check_method_requirements func self request w =
    (Raises (RaisedOther
       (Exception (schema_message (class_name self)
                     (PyStr.lower (method request))))), w).
Proof.
  intros Hm Hs. unfold check_method_requirements.
  apply String.eqb_neq in Hm. rewrite Hm, Hs. reflexivity.
Qed.

(** DELETE: no check. *)
Lemma check_method_requirements_delete func self request :
  method request = "DELETE" →
  check_method_requirements func self request = func.
Proof.
  intros Hm. unfold check_method_requirements. by rewrite Hm.
Qed.

(** A normal return passes through the formatter. *)
Lemma formatter_returned func app w r w1 :
  func w = (Returned r, w1) →
  jsonapi_exception_formatter func app w = (Returned r, w1).
Proof.
  intros Hf. unfold jsonapi_exception_formatter, try_except. by rewrite Hf.
Qed.

(** The first [except] clause. *)
Lemma formatter_jsonapi func app w e w1 :
  func w = (Raises (RaisedJsonApi e), w1) →
  jsonapi_exception_formatter func app w = (Returned (error_response e), w1).
Proof.
  intros Hf. unfold jsonapi_exception_formatter, try_except. by rewrite Hf.
Qed.

(** The second [except] clause, debug or propagate mode. *)
Lemma formatter_reraise func app w e w1 :
  func w = (Raises (RaisedOther e), w1) →
  reraises app = true →
  jsonapi_exception_formatter func app w = (Raises (RaisedOther e), w1).
Proof.
  intros Hf Hr. unfold jsonapi_exception_formatter, try_except.
  rewrite Hf. unfold reraises in Hr. by rewrite Hr.
Qed.

(** The second [except] clause otherwise: the report runs first, and the
    envelope is built only if it returns. *)
Lemma formatter_translate func app w e w1 :
  func w = (Raises (RaisedOther e), w1) →
  reraises app = false →
  jsonapi_exception_formatter func app w =
    match sentry_report app w1 with
    | (Returned _, w2) => (Returned (error_response (translated app e)), w2)
    | (Raises x, w2) => (Raises x, w2)
    end.
Proof.
  intros Hf Hr. unfold jsonapi_exception_formatter, try_except.
  rewrite Hf. unfold reraises in Hr. rewrite Hr.
  unfold bind, sentry_report.
  destruct (sentry app) as [capture|]; [|reflexivity].
  by destruct (capture w1) as [[[]|x] w2].
Qed.

(** What is not an [Exception] is not caught. *)
Lemma formatter_base func app w name w1 :
  func w = (Raises (RaisedBase name), w1) →
  jsonapi_exception_formatter func app w = (Raises (RaisedBase name), w1).
Proof.
  intros Hf. unfold jsonapi_exception_formatter, try_except. by rewrite Hf.
Qed.

Lemma error_response_one_error e : exactly_one_error (error_response e).
Proof. by eexists. Qed.

Lemma header_rejection_one_error code status detail :
  exactly_one_error (header_rejection code status detail).
Proof. by eexists. Qed.

(** Every run of [check_headers] is a pass to the wrapped function, a
    raise that leaves the world as it was, or one of the two rejections,
    built without the wrapped function. *)
Lemma check_headers_cases func request w :
  check_headers func request w = func w
  ∨ (∃ e, ∀ func', check_headers func' request w = (Raises e, w))
  ∨ (∀ func', check_headers func' request w
              = (Returned (header_rejection 415 "415" content_type_detail), w))
  ∨ (∀ func', check_headers func' request w
              = (Returned (header_rejection 406 "406" accept_detail_code), w)).
Proof.
  destruct (decide (method request ∈ ["POST"; "PATCH"])) as [Hm|Hm].
  - destruct (headers request !! "Content-Type") as [v|] eqn:Hc.
    + right; right; left. intros f. by eapply check_headers_body_present.
    + right; left. eexists. intros f. by eapply check_headers_body_absent.
  - destruct (headers request !! "Accept") as [[s|l]|] eqn:Ha.
    + destruct (accept_loop false (PyStr.split "," s)) eqn:Hl.
      * right; right; right. intros f.
        by rewrite (check_headers_no_body_accept _ _ _ s Hm Ha), Hl.
      * left. by rewrite (check_headers_no_body_accept _ _ _ s Hm Ha), Hl.
    + right; left. eexists. intros f. unfold check_headers.
      rewrite (bool_decide_eq_false_2 _ Hm), Ha.
      rewrite bool_decide_eq_true_2 by eauto.
      unfold bind, getitem. rewrite Ha. reflexivity.
    + left. by apply check_headers_no_body_no_accept.
Qed.

End FormatterLemmas.

Section FormatterClaims.
Context {World : Type}.
Implicit Types (func : M World Response) (request : Request) (w : World)
  (app : App World) (self : Handler).

(** C8: on a handler instance without a schema attribute, a request whose
    method is not DELETE makes [check_method_requirements] raise an
    exception whose message is "You must provide a schema class in
    <class name> to get access to the default <method> method", with the
    method in lower case, and the world is left as it was; a DELETE
    request runs the wrapped function with no check. *)
Theorem schema_requirement func self request w :
  has_schema self = false →
  (method request ≠ "DELETE" →
   check_method_requirements func self request w =
     (Raises (RaisedOther (Exception
        ("You must provide a schema class in " ++ class_name self
         ++ " to get access to the default "
         ++ PyStr.lower (method request) ++ " method"))), w))
  ∧ (method request = "DELETE" →
     check_method_requirements func self request w = func w).
Proof.
  intros Hs. split; intros Hm.
  - by apply check_method_requirements_raises.
  - by rewrite check_method_requirements_delete.
Qed.

(** C3, as amended: the exception that [check_method_requirements] raises
    on a misconfigured handler is a plain exception.  Under
    [jsonapi_exception_formatter] it reaches the caller unchanged when
    DEBUG is true or PROPAGATE_EXCEPTIONS is true; otherwise, once the
    report to the error tracker (if any) has returned, it is formatted
    into a response with one error object built from it. *)
Theorem configuration_error_through_formatter func self request app w :
  method request ≠ "DELETE" →
  has_schema self = false →
  (DEBUG (config app) = true ∨ PROPAGATE_EXCEPTIONS (config app) = Some true →
   jsonapi_exception_formatter
     (check_method_requirements func self request) app w =
     (Raises (RaisedOther (Exception
        (schema_message (class_name self) (PyStr.lower (method request))))),
      w))
  ∧ (DEBUG (config app) = false →
     PROPAGATE_EXCEPTIONS (config app) ≠ Some true →
     ∀ w', sentry_report app w = (Returned tt, w') →
     jsonapi_exception_formatter
       (check_method_requirements func self request) app w =
       (Returned (error_response (translated app (Exception
          (schema_message (class_name self) (PyStr.lower (method request)))))),
        w')).
Proof.
  intros Hm Hs.
  pose proof (check_method_requirements_raises func self request w Hm Hs)
    as Hraise.
  split.
  - intros Hmode. apply formatter_reraise; [done|]. by apply reraises_true.
  - intros Hd Hp w' Hrep.
    rewrite (formatter_translate _ _ _ _ _ Hraise)
      by (by apply reraises_false).
    by rewrite Hrep.
Qed.

(** C5, as amended: when the wrapped function raises something that is
    not a [JsonApiException], outside debug and propagate mode, the
    formatter returns the error response if no error tracker is registered
    or if its capture operation returns; if the capture operation raises,
    what it raises leaves the formatter and no response is built. *)
Theorem formatter_report_outcome func app w e w1 :
  func w = (Raises (RaisedOther e), w1) →
  DEBUG (config app) = false →
  PROPAGATE_EXCEPTIONS (config app) ≠ Some true →
  (sentry app = None →
   jsonapi_exception_formatter func app w =
     (Returned (error_response (translated app e)), w1))
  ∧ (∀ capture w2,
       sentry app = Some capture → capture w1 = (Returned tt, w2) →
       jsonapi_exception_formatter func app w =
         (Returned (error_response (translated app e)), w2))
  ∧ (∀ capture x w2,
       sentry app = Some capture → capture w1 = (Raises x, w2) →
       jsonapi_exception_formatter func app w = (Raises x, w2)).
Proof.
  intros Hf Hd Hp.
  assert (Hr : reraises app = false) by (by apply reraises_false).
  rewrite (formatter_translate _ _ _ _ _ Hf Hr). unfold sentry_report.
  repeat split.
  - by intros ->.
  - intros capture w2 -> Hc. by rewrite Hc.
  - intros capture x w2 -> Hc. by rewrite Hc.
Qed.

(** C6: when the wrapped function raises a [JsonApiException], the
    formatter returns a response whose status is the exception's status,
    whose body is the envelope with that exception converted to a single
    error object, and whose Content-Type header is
    application/vnd.api+json. *)
Theorem jsonapi_exception_response func app w e w1 :
  func w = (Raises (RaisedJsonApi e), w1) →
  ∃ r, jsonapi_exception_formatter func app w = (Returned r, w1)
       ∧ resp_status r = StatusStr (je_status e)
       ∧ resp_body r = JsonBody {| errors := [to_dict e] |}
       ∧ resp_headers r !! "Content-Type" = Some "application/vnd.api+json".
Proof.
  intros Hf. exists (error_response e). split.
  - by apply formatter_jsonapi.
  - repeat split.
Qed.

(** C9: the [JsonApiException] clause comes before any look at the
    configuration: whatever the application's flags, a raised
    [JsonApiException] becomes the error response; when the formatter
    itself raises, what the wrapped function raised was not a
    [JsonApiException]; and in debug or propagate mode another exception
    is raised again as it is. *)
Theorem jsonapi_exception_caught_before_flags func app w :
  (∀ e w1, func w = (Raises (RaisedJsonApi e), w1) →
     jsonapi_exception_formatter func app w
     = (Returned (error_response e), w1))
  ∧ (∀ y w1 x w2,
       func w = (Raises y, w1) →
       jsonapi_exception_formatter func app w = (Raises x, w2) →
       ∀ e, y ≠ RaisedJsonApi e)
  ∧ (∀ e w1,
       func w = (Raises (RaisedOther e), w1) →
       DEBUG (config app) = true
       ∨ PROPAGATE_EXCEPTIONS (config app) = Some true →
       jsonapi_exception_formatter func app w = (Raises (RaisedOther e), w1)).
Proof.
  repeat split.
  - intros e w1 Hf. by apply formatter_jsonapi.
  - intros y w1 x w2 Hf Hraise e ->.
    by rewrite (formatter_jsonapi _ _ _ _ _ Hf) in Hraise.
  - intros e w1 Hf Hmode. apply formatter_reraise; [done|].
    by apply reraises_true.
Qed.

(** C10: an error response built by one of the stages has exactly one
    error object.  A run of [check_headers] is a pass to the wrapped
    function, a raise, or a response with status 415 or 406 that does not
    depend on the wrapped function and has exactly one error object; and
    when the wrapped function raises and the formatter returns a response
    (for a [JsonApiException] or for a translated failure), that response
    has exactly one error object. *)
Theorem error_responses_have_one_error func request app w :
  (check_headers func request w = func w
   ∨ (∃ e, check_headers func request w = (Raises e, w))
   ∨ (∃ r, (∀ func', check_headers func' request w = (Returned r, w))
           ∧ (resp_status r = StatusInt 415 ∨ resp_status r = StatusInt 406)
           ∧ exactly_one_error r))
  ∧ (∀ y w1 r w2,
       func w = (Raises y, w1) →
       jsonapi_exception_formatter func app w = (Returned r, w2) →
       exactly_one_error r).
Proof.
  split.
  - destruct (check_headers_cases func request w) as [H|[[e H]|[H|H]]].
    + by left.
    + right; left. by exists e.
    + right; right. eexists. split; [exact H|].
      split; [by left | apply header_rejection_one_error].
    + right; right. eexists. split; [exact H|].
      split; [by right | apply header_rejection_one_error].
  - intros [e|e|name] w1 r w2 Hf Hret.
    + rewrite (formatter_jsonapi _ _ _ _ _ Hf) in Hret.
      injection Hret as <- _. apply error_response_one_error.
    + destruct (reraises app) eqn:Hr.
      * by rewrite (formatter_reraise _ _ _ _ _ Hf Hr) in Hret.
      * rewrite (formatter_translate _ _ _ _ _ Hf Hr) in Hret.
        destruct (sentry_report app w1) as [[[]|x] w3]; [|done].
        injection Hret as <- _. apply error_response_one_error.
    + by rewrite (formatter_base _ _ _ _ _ Hf) in Hret.
Qed.

End FormatterClaims.

(** ** The claims at concrete inputs *)

(** C8 at a concrete input: GET and DELETE on the schema-less handler. *)
Lemma schema_requirement_witness :
  check_method_requirements Sample.handler Sample.schemaless
    (Sample.request_of "GET" []) []
  = (Raises (RaisedOther (Exception
       "You must provide a schema class in PersonList to get access to the default get method")),
     [])
  ∧ check_method_requirements Sample.handler Sample.schemaless
      (Sample.request_of "DELETE" []) []
    = (Returned Sample.ok_response, ["handler"]).
Proof.
  split.
  - apply (proj1 (schema_requirement Sample.handler Sample.schemaless
                    (Sample.request_of "GET" []) [] eq_refl)).
    by_compute.
  - apply (proj2 (schema_requirement Sample.handler Sample.schemaless
                    (Sample.request_of "DELETE" []) [] eq_refl)).
    reflexivity.
Defined.

(** C3, the claim as stated fails: outside debug and propagate mode the
    configuration error of a GET on the schema-less handler does not reach
    the caller; the formatter turns it into a 400 response with one error
    object and the wrapped function is not called. *)
Lemma configuration_error_is_formatted :
  jsonapi_exception_formatter Sample.misconfigured_get
    (Sample.app_plain Sample.production) []
  = (Returned Sample.misconfigured_response, [])
  ∧ ¬ (∃ x w', jsonapi_exception_formatter Sample.misconfigured_get
                 (Sample.app_plain Sample.production) []
               = (Raises x, w')).
Proof.
  assert (Hrun : jsonapi_exception_formatter Sample.misconfigured_get
                   (Sample.app_plain Sample.production) []
                 = (Returned Sample.misconfigured_response, []))
    by reflexivity.
  split; [exact Hrun|]. intros (x & w' & Hraise).
  rewrite Hrun in Hraise. discriminate.
Qed.

(** C3 as amended, at concrete inputs: in debug mode the error reaches the
    caller; in production, with an error tracker, it is reported and
    formatted. *)
Lemma configuration_error_through_formatter_witness :
  jsonapi_exception_formatter Sample.misconfigured_get
    (Sample.app_plain Sample.debug) []
  = (Raises (RaisedOther (Exception
       "You must provide a schema class in PersonList to get access to the default get method")),
     [])
  ∧ jsonapi_exception_formatter Sample.misconfigured_get
      (Sample.app_sentry Sample.production) []
    = (Returned Sample.misconfigured_response, ["captured"]).
Proof.
  split.
  - apply (proj1 (configuration_error_through_formatter Sample.handler
                    Sample.schemaless (Sample.request_of "GET" [])
                    (Sample.app_plain Sample.debug) []
                    ltac:(by_compute) eq_refl)).
    left. reflexivity.
  - apply (proj2 (configuration_error_through_formatter Sample.handler
                    Sample.schemaless (Sample.request_of "GET" [])
                    (Sample.app_sentry Sample.production) []
                    ltac:(by_compute) eq_refl)
             eq_refl ltac:(discriminate) ["captured"] eq_refl).
Defined.

(** C5, the claim as stated fails: with a capture operation that raises,
    the formatter raises what the capture raised and builds no response. *)
Lemma capture_failure_escapes :
  jsonapi_exception_formatter Sample.raises_boom
    (Sample.app_broken_sentry Sample.production) []
  = (Raises (RaisedOther (Exception "sentry unreachable")), [])
  ∧ ¬ (∃ r w', jsonapi_exception_formatter Sample.raises_boom
                 (Sample.app_broken_sentry Sample.production) []
               = (Returned r, w')).
Proof.
  assert (Hrun : jsonapi_exception_formatter Sample.raises_boom
                   (Sample.app_broken_sentry Sample.production) []
                 = (Raises (RaisedOther (Exception "sentry unreachable")), []))
    by reflexivity.
  split; [exact Hrun|]. intros (r & w' & Hret).
  rewrite Hrun in Hret. discriminate.
Qed.

(** C5 as amended, at concrete inputs: no tracker, a tracker that records
    the report, a tracker that raises. *)
Lemma formatter_report_outcome_witness :
  jsonapi_exception_formatter Sample.raises_boom
    (Sample.app_plain Sample.production) []
  = (Returned Sample.boom_response, [])
  ∧ jsonapi_exception_formatter Sample.raises_boom
      (Sample.app_sentry Sample.production) []
    = (Returned Sample.boom_response, ["captured"])
  ∧ jsonapi_exception_formatter Sample.raises_boom
      (Sample.app_broken_sentry Sample.production) []
    = (Raises (RaisedOther (Exception "sentry unreachable")), []).
Proof.
  split; [|split].
  - apply (proj1 (formatter_report_outcome Sample.raises_boom
                    (Sample.app_plain Sample.production) []
                    (Exception "boom") [] eq_refl eq_refl
                    ltac:(discriminate))).
    reflexivity.
  - apply (proj1 (proj2 (formatter_report_outcome Sample.raises_boom
                    (Sample.app_sentry Sample.production) []
                    (Exception "boom") [] eq_refl eq_refl
                    ltac:(discriminate)))
             (Sample.log "captured") ["captured"] eq_refl eq_refl).
  - apply (proj2 (proj2 (formatter_report_outcome Sample.raises_boom
                    (Sample.app_broken_sentry Sample.production) []
                    (Exception "boom") [] eq_refl eq_refl
                    ltac:(discriminate)))
             (raise (RaisedOther (Exception "sentry unreachable")))
             (RaisedOther (Exception "sentry unreachable")) []
             eq_refl eq_refl).
Defined.

(** C6 at a concrete input: a 404 raised downstream. *)
Lemma jsonapi_exception_response_witness :
  ∃ r, jsonapi_exception_formatter Sample.raises_not_found
         (Sample.app_plain Sample.production) [] = (Returned r, [])
       ∧ resp_status r = StatusStr "404"
       ∧ resp_body r = JsonBody {| errors := [to_dict Sample.not_found] |}
       ∧ resp_headers r !! "Content-Type" = Some "application/vnd.api+json".
Proof.
  apply (jsonapi_exception_response Sample.raises_not_found
           (Sample.app_plain Sample.production) [] Sample.not_found []).
  reflexivity.
Defined.

(** C9 at concrete inputs: in debug mode a [JsonApiException] still becomes
    a response, and the other exception is raised again. *)
Lemma jsonapi_exception_caught_before_flags_witness :
  jsonapi_exception_formatter Sample.raises_not_found
    (Sample.app_plain Sample.debug) []
  = (Returned (error_response Sample.not_found), [])
  ∧ (∀ e, RaisedOther (Exception "boom") ≠ RaisedJsonApi e)
  ∧ jsonapi_exception_formatter Sample.raises_boom
      (Sample.app_plain Sample.debug) []
    = (Raises (RaisedOther (Exception "boom")), []).
Proof.
  split; [|split].
  - apply (proj1 (jsonapi_exception_caught_before_flags
                    Sample.raises_not_found (Sample.app_plain Sample.debug) [])
             Sample.not_found []).
    reflexivity.
  - apply (proj1 (proj2 (jsonapi_exception_caught_before_flags
                    Sample.raises_boom (Sample.app_plain Sample.debug) []))
             (RaisedOther (Exception "boom")) []
             (RaisedOther (Exception "boom")) []); reflexivity.
  - apply (proj2 (proj2 (jsonapi_exception_caught_before_flags
                    Sample.raises_boom (Sample.app_plain Sample.debug) []))
             (Exception "boom") []); [reflexivity | left; reflexivity].
Defined.

(** C10 at a concrete input: the response built from a failure downstream
    of the formatter. *)
Lemma error_responses_have_one_error_witness :
  exactly_one_error Sample.boom_response.
Proof.
  apply (proj2 (error_responses_have_one_error Sample.raises_boom
                  (Sample.request_of "GET" [])
                  (Sample.app_sentry Sample.production) [])
           (RaisedOther (Exception "boom")) [] Sample.boom_response
           ["captured"]); reflexivity.
Defined.


(** ** Splitting and stripping *)

Lemma split_not_nil (sep : ascii) (s : string) : PyStr.split sep s ≠ [].
Proof.
  destruct s as [|c s]; cbn; [done|].
  destruct (Ascii.eqb c sep); [done|].
  by destruct (PyStr.split sep s).
Qed.

Lemma join_cons (sep x : string) (l : list string) :
  l ≠ [] → join sep (x :: l) = x ++ sep ++ join sep l.
Proof. by destruct l. Qed.

Lemma prefix_char_false (a c : ascii) (s : string) :
  a ≠ c → String.prefix (String a EmptyString) (String c s) = false.
Proof. intros Hne. cbn. by destruct (ascii_dec a c). Qed.

Lemma contains_empty (n : string) :
  n ≠ EmptyString → PyStr.contains n EmptyString = false.
Proof. by destruct n. Qed.

Lemma rstrip_idem (s : string) : PyStr.rstrip (PyStr.rstrip s) = PyStr.rstrip s.
Proof.
  induction s as [|c s IH]; [done|]. cbn [PyStr.rstrip].
  destruct (PyStr.rstrip s) as [|d r] eqn:Hr.
  - destruct (PyStr.is_space c) eqn:Hc; [done|].
    cbn [PyStr.rstrip]. by rewrite Hc.
  - cbn [PyStr.rstrip] in *. by rewrite IH.
Qed.

Lemma lstrip_tight (s : string) :
  PyStr.lstrip s = EmptyString ∨ starts_tight (PyStr.lstrip s) = true.
Proof.
  induction s as [|c s IH]; [by left|]. cbn [PyStr.lstrip].
  destruct (PyStr.is_space c) eqn:Hc; [done|]. right.
  cbn [starts_tight]. by rewrite Hc.
Qed.

Lemma lstrip_of_tight (s : string) :
  s = EmptyString ∨ starts_tight s = true → PyStr.lstrip s = s.
Proof.
  intros [->|Hs]; [done|]. destruct s as [|c s]; [done|].
  cbn [starts_tight PyStr.lstrip] in *. apply negb_true_iff in Hs.
  by rewrite Hs.
Qed.

Lemma rstrip_keeps_tight (s : string) :
  s = EmptyString ∨ starts_tight s = true →
  PyStr.rstrip s = EmptyString ∨ starts_tight (PyStr.rstrip s) = true.
Proof.
  intros [->|Hs]; [by left|]. destruct s as [|c s]; [done|].
  cbn [starts_tight] in Hs. right. cbn [PyStr.rstrip].
  destruct (PyStr.rstrip s); cbn [starts_tight]; [|done].
  apply negb_true_iff in Hs. rewrite Hs. cbn [starts_tight]. by rewrite Hs.
Qed.

Lemma strip_idem (s : string) : PyStr.strip (PyStr.strip s) = PyStr.strip s.
Proof.
  unfold PyStr.strip.
  rewrite (lstrip_of_tight (PyStr.rstrip (PyStr.lstrip s))).
  - apply rstrip_idem.
  - apply rstrip_keeps_tight, lstrip_tight.
Qed.

Lemma ends_tight_tail (a : ascii) (n : string) :
  ends_tight (String a n) = true → ends_tight n = true.
Proof. by destruct n. Qed.

Lemma prefix_nil (s : string) : String.prefix EmptyString s = true.
Proof. by destruct s. Qed.

(** Trailing white space does not change whether a needle that ends on
    another character is a prefix. *)
Lemma prefix_rstrip (s : string) :
  ∀ n, ends_tight n = true →
       String.prefix n (PyStr.rstrip s) = String.prefix n s.
Proof.
  induction s as [|c s IH]; intros n Hn; [done|].
  destruct n as [|a n]; [by rewrite !prefix_nil|].
  pose proof (IH n (ends_tight_tail _ _ Hn)) as IHn.
  cbn [PyStr.rstrip]. destruct (PyStr.rstrip s) as [|d r] eqn:Hr.
  - destruct (PyStr.is_space c) eqn:Hc.
    + cbn [String.prefix]. destruct (ascii_dec a c) as [->|]; [|done].
      rewrite <- IHn. destruct n as [|b n]; [|done].
      cbn [ends_tight] in Hn. by rewrite Hc in Hn.
    + cbn [String.prefix]. destruct (ascii_dec a c); [|done]. by rewrite <- IHn.
  - cbn [String.prefix]. destruct (ascii_dec a c); [|done]. by rewrite <- IHn.
Qed.

Lemma contains_rstrip (n s : string) :
  n ≠ EmptyString → ends_tight n = true →
  PyStr.contains n (PyStr.rstrip s) = PyStr.contains n s.
Proof.
  intros Hne Hn. induction s as [|c s IH]; [done|].
  cbn [PyStr.contains]. rewrite <- (prefix_rstrip (String c s) n Hn), <- IH.
  cbn [PyStr.rstrip]. destruct (PyStr.rstrip s) as [|d r] eqn:Hr.
  - destruct n as [|a n]; [done|]. by destruct (PyStr.is_space c).
  - done.
Qed.

Lemma contains_lstrip (n s : string) :
  starts_tight n = true →
  PyStr.contains n (PyStr.lstrip s) = PyStr.contains n s.
Proof.
  intros Hn. destruct n as [|a n]; [done|]. cbn [starts_tight] in Hn.
  apply negb_true_iff in Hn.
  induction s as [|c s IH]; [done|]. cbn [PyStr.lstrip].
  destruct (PyStr.is_space c) eqn:Hc; [|done].
  rewrite IH. cbn [PyStr.contains String.prefix].
  destruct (ascii_dec a c) as [->|]; [congruence|done].
Qed.

Lemma contains_strip (n s : string) :
  starts_tight n = true → ends_tight n = true →
  PyStr.contains n (PyStr.strip s) = PyStr.contains n s.
Proof.
  intros Hs He. unfold PyStr.strip.
  rewrite contains_rstrip; [by apply contains_lstrip| by destruct n | done].
Qed.

Lemma split_join (sep : ascii) (s : string) :
  join (String sep EmptyString) (PyStr.split sep s) = s.
Proof.
  induction s as [|c s IH]; [done|]. cbn [PyStr.split].
  destruct (Ascii.eqb_spec c sep) as [->|Hne].
  - rewrite join_cons by apply split_not_nil. by rewrite IH.
  - pose proof (split_not_nil sep s) as Hnn.
    destruct (PyStr.split sep s) as [|x xs]; [done|].
    destruct xs as [|y ys]; cbn [join] in *; by rewrite <- IH.
Qed.

Lemma split_no_sep (sep : ascii) (s : string) :
  ∀ piece, piece ∈ PyStr.split sep s →
           PyStr.contains (String sep EmptyString) piece = false.
Proof.
  induction s as [|c s IH]; intros piece Hin.
  - cbn in Hin. by apply list_elem_of_singleton in Hin as ->.
  - cbn [PyStr.split] in Hin. destruct (Ascii.eqb_spec c sep) as [->|Hne].
    + apply elem_of_cons in Hin as [->|Hin]; [done|by apply IH].
    + pose proof (split_not_nil sep s) as Hnn.
      destruct (PyStr.split sep s) as [|x xs]; [done|].
      apply elem_of_cons in Hin as [->|Hin].
      * cbn [PyStr.contains]. rewrite prefix_char_false by done.
        apply IH. by left.
      * apply IH. by right.
Qed.

(** ** The scan against the verdict of the specification *)

Lemma existsb_fmap {A B} (f : B → bool) (g : A → B) (l : list A) :
  existsb f (map g l) = existsb (λ x, f (g x)) l.
Proof. induction l as [|x l IH]; [done|]. cbn. by rewrite IH. Qed.

Lemma existsb_pointwise {A} (f g : A → bool) (l : list A) :
  (∀ x, f x = g x) → existsb f l = existsb g l.
Proof.
  intros Hfg. induction l as [|x l IH]; [done|]. cbn. by rewrite Hfg, IH.
Qed.

Lemma existsb_perm {A} (f : A → bool) (l l' : list A) :
  l ≡ₚ l' → existsb f l = existsb f l'.
Proof.
  induction 1 as [|x l l' _ IH|x y l|l l' l'' _ IH1 _ IH2]; cbn.
  - done.
  - by rewrite IH.
  - by destruct (f x), (f y).
  - by rewrite IH1.
Qed.

(** The loop in closed form: an exact match anywhere wins; otherwise the
    flag is raised by any parameterized candidate. *)
Lemma accept_loop_closed (l : list string) :
  ∀ flag,
    accept_loop flag l =
      if existsb (λ c, bool_decide (PyStr.strip c ∈ ALLOWED_HEADERS)) l
      then false
      else flag || existsb (λ c, PyStr.contains vnd_api_json c
                                 && negb (String.eqb (PyStr.strip c) vnd_api_json)) l.
Proof.
  induction l as [|a l IH]; intros flag; cbn [accept_loop existsb].
  - by rewrite orb_false_r.
  - case_bool_decide as Ha; [done|]. cbn [orb].
    fold vnd_api_json.
    destruct (PyStr.contains vnd_api_json a
              && negb (String.eqb (PyStr.strip a) vnd_api_json)); rewrite IH.
    + cbn [orb]. by rewrite orb_true_r.
    + done.
Qed.

Lemma vnd_api_json_tight :
  starts_tight vnd_api_json = true ∧ ends_tight vnd_api_json = true.
Proof. split; reflexivity. Qed.

Lemma accept_loop_spec (l : list string) :
  accept_loop false l = accept_violation_spec l.
Proof.
  rewrite accept_loop_closed. unfold accept_violation_spec.
  rewrite !existsb_fmap. cbn [orb].
  destruct (existsb _ l); [done|].
  apply existsb_pointwise. intros a.
  by rewrite (contains_strip _ a (proj1 vnd_api_json_tight)
                (proj2 vnd_api_json_tight)).
Qed.

Section HeaderExtras.
Context {World : Type}.
Implicit Types (func : M World Response) (request : Request) (w : World).

(** For POST and PATCH the outcome is decided by the presence of the
    Content-Type header alone: the 415 rejection when it is there, whatever
    its value, and a KeyError when it is not.  The Accept header is not
    read, the wrapped function is not called and the world is left as it
    was. *)
Theorem body_method_outcome func request w :
  method request ∈ ["POST"; "PATCH"] →
  check_headers func request w =
    if bool_decide (is_Some (headers request !! "Content-Type"))
    then (Returned (header_rejection 415 "415" content_type_detail), w)
    else (Raises (RaisedOther (KeyError "Content-Type")), w).
Proof.
  intros Hm. destruct (headers request !! "Content-Type") as [v|] eqn:Hc.
  - rewrite bool_decide_eq_true_2 by eauto.
    by eapply check_headers_body_present.
  - rewrite bool_decide_eq_false_2 by (by intros [? ?]).
    by apply check_headers_body_absent.
Qed.

(** For the other methods the Content-Type header is never looked at:
    setting it to any value, or removing it, leaves the result as it is. *)
Theorem content_type_ignored_without_body func request w v :
  method request ∉ ["POST"; "PATCH"] →
  check_headers func (with_content_type v request) w
  = check_headers func request w.
Proof.
  intros Hm. unfold check_headers.
  assert (Ha : headers (with_content_type v request) !! "Accept"
               = headers request !! "Accept").
  { destruct v; cbn; [by rewrite lookup_insert_ne|by rewrite lookup_delete_ne]. }
  change (method (with_content_type v request)) with (method request).
  rewrite (bool_decide_eq_false_2 _ Hm).
  unfold getitem. by rewrite Ha.
Qed.

(** For a request that is neither POST nor PATCH and whose Accept header
    is a string, [check_headers] does what the specification words say on
    the trimmed candidates: the 406 rejection on a violation, without
    calling the wrapped function; the wrapped function otherwise. *)
Theorem accept_check_refines_spec func request w s :
  method request ∉ ["POST"; "PATCH"] →
  headers request !! "Accept" = Some (HStr s) →
  check_headers func request w =
    if accept_violation_spec (PyStr.split "," s)
    then (Returned (header_rejection 406 "406" accept_detail_code), w)
    else func w.
Proof.
  intros Hm Ha. rewrite <- accept_loop_spec.
  by apply check_headers_no_body_accept.
Qed.

(** A request that is neither POST nor PATCH and whose Accept header names
    the JSON:API media type in no candidate (wild cards, other types, an
    empty value) goes to the wrapped function. *)
Theorem accept_without_jsonapi_passes func request w s :
  method request ∉ ["POST"; "PATCH"] →
  headers request !! "Accept" = Some (HStr s) →
  (∀ c, c ∈ PyStr.split "," s → PyStr.contains vnd_api_json c = false) →
  check_headers func request w = func w.
Proof.
  intros Hm Ha Hno.
  rewrite (check_headers_no_body_accept _ _ _ s Hm Ha), accept_loop_closed.
  destruct (existsb _ (PyStr.split "," s)); [done|]. cbn [orb].
  replace (existsb _ (PyStr.split "," s)) with false; [done|].
  symmetry. apply not_true_iff_false. intros Hex.
  apply existsb_exists in Hex as (c & Hin & Hc).
  apply andb_true_iff in Hc as [Hc _].
  apply list_elem_of_In in Hin. by rewrite (Hno c Hin) in Hc.
Qed.

End HeaderExtras.

(** The verdict of the scan does not depend on the order of the
    candidates, although the loop stops at the first exact match. *)
Theorem accept_loop_order_irrelevant (flag : bool) (l l' : list string) :
  l ≡ₚ l' → accept_loop flag l = accept_loop flag l'.
Proof.
  intros Hp. rewrite !accept_loop_closed.
  by rewrite (existsb_perm _ l l' Hp), (existsb_perm _ l l' Hp).
Qed.

(** White space around the candidates does not matter: two lists with the
    same trimmed candidates get the same verdict, although the substring
    test reads the candidate as it is. *)
Theorem accept_loop_padding_irrelevant (flag : bool) (l l' : list string) :
  map PyStr.strip l = map PyStr.strip l' →
  accept_loop flag l = accept_loop flag l'.
Proof.
  intros Hmap.
  assert (Hstrip : ∀ k, accept_loop flag k = accept_loop flag (map PyStr.strip k)).
  { intros k. revert flag. induction k as [|a k IH]; intros flag; [done|].
    cbn [map accept_loop]. rewrite strip_idem.
    fold vnd_api_json.
    rewrite (contains_strip _ a (proj1 vnd_api_json_tight)
               (proj2 vnd_api_json_tight)).
    by rewrite !IH. }
  by rewrite (Hstrip l), (Hstrip l'), Hmap.
Qed.

(** The candidates of a header value: there is at least one, none contains
    a comma, and joined with commas they give the value back. *)
Theorem candidates_round_trip (s : string) :
  PyStr.split "," s ≠ []
  ∧ (∀ c, c ∈ PyStr.split "," s → PyStr.contains "," c = false)
  ∧ join "," (PyStr.split "," s) = s.
Proof.
  split; [apply split_not_nil|]. split; [apply split_no_sep|apply split_join].
Qed.

(** ** More on the formatter *)

Section FormatterExtras.
Context {World : Type}.
Implicit Types (func : M World Response) (request : Request) (w : World)
  (app : App World) (self : Handler).

(** What the wrapped function did when the formatter raises. *)
Lemma formatter_raises_inv func app w x w2 :
  jsonapi_exception_formatter func app w = (Raises x, w2) →
    (∃ name, x = RaisedBase name ∧ func w = (Raises x, w2))
    ∨ (∃ e, x = RaisedOther e ∧ func w = (Raises x, w2)
            ∧ reraises app = true)
    ∨ (∃ e w1 capture,
         func w = (Raises (RaisedOther e), w1)
         ∧ reraises app = false
         ∧ sentry app = Some capture
         ∧ capture w1 = (Raises x, w2)).
Proof.
  intros Hraise. destruct (func w) as [[r|[e|e|name]] w1] eqn:Hf.
  - by rewrite (formatter_returned _ _ _ _ _ Hf) in Hraise.
  - by rewrite (formatter_jsonapi _ _ _ _ _ Hf) in Hraise.
  - destruct (reraises app) eqn:Hr.
    + rewrite (formatter_reraise _ _ _ _ _ Hf Hr) in Hraise.
      injection Hraise as <- <-. right; left. by exists e.
    + rewrite (formatter_translate _ _ _ _ _ Hf Hr) in Hraise.
      unfold sentry_report in Hraise.
      destruct (sentry app) as [capture|] eqn:Hs; [|done].
      destruct (capture w1) as [[[]|y] w3] eqn:Hc; [done|].
      injection Hraise as <- <-. right; right. by exists e, w1, capture.
  - rewrite (formatter_base _ _ _ _ _ Hf) in Hraise.
    injection Hraise as <- <-. left. by exists name.
Qed.

(** The formatter raises in three situations only: the wrapped function
    raised something that is not an [Exception]; it raised another
    exception in debug or propagate mode; or, outside these modes, the
    capture operation of the error tracker raised while the failure was
    being reported. *)
Theorem formatter_raises_iff func app w x w2 :
  jsonapi_exception_formatter func app w = (Raises x, w2) ↔
    (∃ name, x = RaisedBase name ∧ func w = (Raises x, w2))
    ∨ (∃ e, x = RaisedOther e ∧ func w = (Raises x, w2)
            ∧ (DEBUG (config app) = true
               ∨ PROPAGATE_EXCEPTIONS (config app) = Some true))
    ∨ (∃ e w1 capture,
         func w = (Raises (RaisedOther e), w1)
         ∧ DEBUG (config app) = false
         ∧ PROPAGATE_EXCEPTIONS (config app) ≠ Some true
         ∧ sentry app = Some capture
         ∧ capture w1 = (Raises x, w2)).
Proof.
  split.
  - intros Hraise. apply formatter_raises_inv in Hraise
      as [(name & -> & Hf)|[(e & -> & Hf & Hr)|
                            (e & w1 & capture & Hf & Hr & Hs & Hc)]].
    + left. by exists name.
    + right; left. exists e. by apply reraises_true in Hr.
    + right; right. apply reraises_false in Hr as [Hd Hp].
      by exists e, w1, capture.
  - intros [(name & -> & Hf)|[(e & -> & Hf & Hmode)|
                              (e & w1 & capture & Hf & Hd & Hp & Hs & Hc)]].
    + by apply formatter_base.
    + apply formatter_reraise; [done|]. by apply reraises_true.
    + rewrite (formatter_translate _ _ _ e w1 Hf)
        by (by apply reraises_false).
      unfold sentry_report. by rewrite Hs, Hc.
Qed.

(** Wrapping twice is wrapping once, when no error tracker is registered or
    in debug or propagate mode. *)
Theorem formatter_idempotent func app w :
  sentry app = None
  ∨ DEBUG (config app) = true
  ∨ PROPAGATE_EXCEPTIONS (config app) = Some true →
  jsonapi_exception_formatter (jsonapi_exception_formatter func app) app w
  = jsonapi_exception_formatter func app w.
Proof.
  intros Hcase.
  destruct (jsonapi_exception_formatter func app w) as [[r|x] w2] eqn:Hin.
  - by apply formatter_returned.
  - apply formatter_raises_inv in Hin
      as [(name & -> & Hf)|[(e & -> & Hf & Hr)|
                            (e & w1 & capture & Hf & Hr & Hs & Hc)]].
    + by apply formatter_base, formatter_base.
    + apply formatter_reraise; [|done]. by apply formatter_reraise.
    + apply reraises_false in Hr as [Hd Hp].
      destruct Hcase as [Hnone|[Htrue|Htrue]]; congruence.
Qed.

(** The response built from another exception, outside debug and propagate
    mode and once the report has returned: one error object whose detail is
    the exception's own detail attribute if it has one, else the configured
    global message if it is set and not empty, else [str] of the exception;
    whose source is the exception's or the empty string; whose title, code,
    id, links and meta are the exception's; the status of the response is
    the status of the error object, which is the exception's status
    attribute when it has one. *)
Theorem translated_response_fields func app w e w1 w2 :
  func w = (Raises (RaisedOther e), w1) →
  DEBUG (config app) = false →
  PROPAGATE_EXCEPTIONS (config app) ≠ Some true →
  sentry_report app w1 = (Returned tt, w2) →
  ∃ eo,
    jsonapi_exception_formatter func app w =
      (Returned {| resp_body := JsonBody {| errors := [eo] |};
                   resp_status := StatusStr (eo_status eo);
                   resp_headers :=
                     {[ "Content-Type" := "application/vnd.api+json" ]} |},
       w2)
    ∧ eo_detail eo =
        match f_detail e, GLOBAL_ERROR_MESSAGE (config app) with
        | Some d, _ => d
        | None, Some (String c m) => String c m
        | None, _ => f_str e
        end
    ∧ eo_source eo = default EmptyString (f_source e)
    ∧ (∀ st, f_status e = Some st → eo_status eo = st)
    ∧ eo_title eo = f_title e ∧ eo_code eo = f_code e ∧ eo_id eo = f_id e
    ∧ eo_links eo = f_links e ∧ eo_meta eo = f_meta e.
Proof.
  intros Hf Hd Hp Hrep. exists (to_dict (translated app e)).
  rewrite (formatter_translate _ _ _ e w1 Hf) by (by apply reraises_false).
  rewrite Hrep. split; [done|]. split.
  - cbn. destruct (f_detail e); [done|].
    by destruct (GLOBAL_ERROR_MESSAGE (config app)) as [[|c m]|].
  - split; [done|]. split; [|done]. intros st Hst. cbn. by rewrite Hst.
Qed.

(** The stack of the three decorators, the header check outermost and the
    method requirements innermost: for a request that is neither POST nor
    PATCH, with no Accept header or one with an exact match, to a handler
    with a schema, the stack is the formatter around the wrapped function;
    in particular a normal return of the wrapped function comes back as it
    is. *)
Theorem stack_on_well_formed_request func self request app w :
  method request ∉ ["POST"; "PATCH"] →
  (headers request !! "Accept" = None
   ∨ ∃ s, headers request !! "Accept" = Some (HStr s) ∧ has_exact_match s) →
  has_schema self = true →
  check_headers
    (jsonapi_exception_formatter
       (check_method_requirements func self request) app) request w
  = jsonapi_exception_formatter func app w
  ∧ (∀ r w1, func w = (Returned r, w1) →
       check_headers
         (jsonapi_exception_formatter
            (check_method_requirements func self request) app) request w
       = (Returned r, w1)).
Proof.
  intros Hm Hacc Hs.
  assert (Hreq : check_method_requirements func self request = func).
  { unfold check_method_requirements. rewrite Hs. cbn [negb].
    by destruct (negb _). }
  assert (Hpass : ∀ f : M World Response, check_headers f request w = f w).
  { intros f. destruct Hacc as [Hnone|(s & Hsome & c & Hin & Hok)].
    - by apply check_headers_no_body_no_accept.
    - rewrite (check_headers_no_body_accept _ _ _ s Hm Hsome).
      by rewrite (accept_loop_exact _ false c Hin Hok). }
  rewrite Hpass, Hreq. split; [done|].
  intros r w1 Hf. by apply formatter_returned.
Qed.

End FormatterExtras.

(** ** The further properties at concrete inputs *)

(** A PATCH with a Content-Type that is not accepted, and a POST without
    one. *)
Lemma body_method_outcome_witness :
  check_headers Sample.handler
    (Sample.request_of "PATCH"
       [("Content-Type", HStr "text/plain"); ("Accept", HStr "text/html")]) []
  = (Returned (header_rejection 415 "415" content_type_detail), [])
  ∧ check_headers Sample.handler
      (Sample.request_of "POST" [("Accept", HStr "application/json")]) []
    = (Raises (RaisedOther (KeyError "Content-Type")), []).
Proof.
  split.
  - apply (body_method_outcome Sample.handler
             (Sample.request_of "PATCH"
                [("Content-Type", HStr "text/plain");
                 ("Accept", HStr "text/html")]) []).
    by_compute.
  - apply (body_method_outcome Sample.handler
             (Sample.request_of "POST" [("Accept", HStr "application/json")])
             []).
    by_compute.
Defined.

(** A GET with and without a Content-Type header. *)
Lemma content_type_ignored_without_body_witness :
  check_headers Sample.handler
    (with_content_type (Some (HStr "text/plain"))
       (Sample.request_of "GET" [])) []
  = check_headers Sample.handler (Sample.request_of "GET" []) [].
Proof.
  apply (content_type_ignored_without_body Sample.handler
           (Sample.request_of "GET" []) [] (Some (HStr "text/plain"))).
  by_compute.
Defined.

(** A DELETE whose Accept header has a parameterized candidate and no exact
    match. *)
Lemma accept_check_refines_spec_witness :
  check_headers Sample.handler
    (Sample.request_of "DELETE"
       [("Accept", HStr "text/html, application/vnd.api+json;v=1")]) []
  = (Returned (header_rejection 406 "406" accept_detail_code), []).
Proof.
  apply (accept_check_refines_spec Sample.handler
           (Sample.request_of "DELETE"
              [("Accept", HStr "text/html, application/vnd.api+json;v=1")])
           [] "text/html, application/vnd.api+json;v=1").
  - by_compute.
  - reflexivity.
Defined.

(** A GET with a browser-like Accept header. *)
Lemma accept_without_jsonapi_passes_witness :
  check_headers Sample.handler
    (Sample.request_of "GET" [("Accept", HStr "text/html, */*;q=0.8")]) []
  = (Returned Sample.ok_response, ["handler"]).
Proof.
  apply (accept_without_jsonapi_passes Sample.handler
           (Sample.request_of "GET" [("Accept", HStr "text/html, */*;q=0.8")])
           [] "text/html, */*;q=0.8").
  - by_compute.
  - reflexivity.
  - apply Forall_forall. by_compute.
Defined.

(** A parameterized candidate before and after the exact match. *)
Lemma accept_loop_order_irrelevant_witness :
  accept_loop false ["application/vnd.api+json;v=1"; "application/json"]
  = accept_loop false ["application/json"; "application/vnd.api+json;v=1"].
Proof.
  apply (accept_loop_order_irrelevant false
           ["application/vnd.api+json;v=1"; "application/json"]
           ["application/json"; "application/vnd.api+json;v=1"]).
  apply perm_swap.
Defined.

(** The same candidates, padded differently. *)
Lemma accept_loop_padding_irrelevant_witness :
  accept_loop false [" application/vnd.api+json;v=1 "; "text/html"]
  = accept_loop false ["application/vnd.api+json;v=1"; "  text/html"].
Proof.
  apply (accept_loop_padding_irrelevant false
           [" application/vnd.api+json;v=1 "; "text/html"]
           ["application/vnd.api+json;v=1"; "  text/html"]).
  reflexivity.
Defined.

(** A value with a trailing comma. *)
Lemma candidates_round_trip_witness :
  PyStr.contains "," " text/html" = false
  ∧ join "," (PyStr.split "," "application/json, text/html,")
    = "application/json, text/html,".
Proof.
  split.
  - apply (proj1 (proj2 (candidates_round_trip
                           "application/json, text/html,"))).
    by_compute.
  - apply (proj2 (proj2 (candidates_round_trip
                           "application/json, text/html,"))).
Defined.

(** The capture operation raises while a failure is reported. *)
Lemma formatter_raises_iff_witness :
  jsonapi_exception_formatter Sample.raises_boom
    (Sample.app_broken_sentry Sample.production) []
  = (Raises (RaisedOther (Exception "sentry unreachable")), []).
Proof.
  apply (proj2 (formatter_raises_iff Sample.raises_boom
                  (Sample.app_broken_sentry Sample.production) []
                  (RaisedOther (Exception "sentry unreachable")) [])).
  right; right.
  exists (Exception "boom"), [],
    (raise (RaisedOther (Exception "sentry unreachable"))).
  split; [reflexivity|]. split; [reflexivity|]. split; [discriminate|].
  split; reflexivity.
Defined.

(** A failure downstream of two formatters, no tracker registered. *)
Lemma formatter_idempotent_witness :
  jsonapi_exception_formatter
    (jsonapi_exception_formatter Sample.raises_boom
       (Sample.app_plain Sample.production))
    (Sample.app_plain Sample.production) []
  = jsonapi_exception_formatter Sample.raises_boom
      (Sample.app_plain Sample.production) [].
Proof.
  apply (formatter_idempotent Sample.raises_boom
           (Sample.app_plain Sample.production) []).
  left. reflexivity.
Defined.

(** A plain exception, reported and translated. *)
Lemma translated_response_fields_witness :
  ∃ eo,
    jsonapi_exception_formatter Sample.raises_boom
      (Sample.app_sentry Sample.production) []
    = (Returned {| resp_body := JsonBody {| errors := [eo] |};
                   resp_status := StatusStr (eo_status eo);
                   resp_headers :=
                     {[ "Content-Type" := "application/vnd.api+json" ]} |},
       ["captured"])
    ∧ eo_detail eo = "boom".
Proof.
  destruct (translated_response_fields Sample.raises_boom
              (Sample.app_sentry Sample.production) []
              (Exception "boom") [] ["captured"]
              eq_refl eq_refl ltac:(discriminate) eq_refl)
    as (eo & Hrun & Hdetail & _).
  exists eo. split; [exact Hrun | exact Hdetail].
Defined.

(** A GET that accepts application/json, on a handler with a schema. *)
Lemma stack_on_well_formed_request_witness :
  check_headers
    (jsonapi_exception_formatter
       (check_method_requirements Sample.handler
          {| class_name := "PersonList"; has_schema := true |}
          (Sample.request_of "GET" [("Accept", HStr "application/json")]))
       (Sample.app_plain Sample.production))
    (Sample.request_of "GET" [("Accept", HStr "application/json")]) []
  = (Returned Sample.ok_response, ["handler"]).
Proof.
  refine (proj2 (stack_on_well_formed_request Sample.handler
                   {| class_name := "PersonList"; has_schema := true |}
                   (Sample.request_of "GET"
                      [("Accept", HStr "application/json")])
                   (Sample.app_plain Sample.production) [] _ _ eq_refl)
            Sample.ok_response ["handler"] eq_refl).
  - by_compute.
  - right. exists "application/json". split; [reflexivity|].
    exists "application/json". split; by_compute.
Defined.
